(** * sqla_wrapper.main: the [SQLAlchemy] facade

    A shallow embedding of [src/sqla_wrapper/main.py].

    - Python dictionaries with string keys that are only read and written
      by key are finite maps [gmap string _]: [d[k] = v] is [<[k:=v]> d],
      [d.pop(k)] is [delete k d], [k in d] is [is_Some (d !! k)].  The one
      dictionary whose items are iterated, [databases], is the list of its
      items in insertion order.
    - The facade is a mutable object: its methods are computations in a
      state-and-exception monad over the object and the trace of calls made
      into the ORM library.  A raised exception keeps the state reached so
      far, as in Python.
    - The ORM library (engine creation, the session constructor's keyword
      names, the schema DDL executor, session methods) is outside this
      module; it enters through the interface [ORM]. *)

From Stdlib Require Import ZArith.
From stdpp Require Import base option gmap strings list fin_maps pretty.

Open Scope string_scope.
Open Scope list_scope.

(** ** Python values and exceptions *)

(** An exception raised inside the ORM library, named by its class. *)
Definition orm_error := string.

(** The values that travel through option bags and argument lists.  [VObj]
    is an opaque, hashable Python object (a class, a [MetaData] instance, a
    callable) known by a reference; [VEngine] is an engine handle. *)
Inductive value (Engine : Type) : Type :=
| VNone
| VBool (b : bool)
| VInt (n : Z)
| VStr (s : string)
| VObj (ref : string)
| VEngine (e : Engine).

Arguments VNone {Engine}.
Arguments VBool {Engine} b.
Arguments VInt {Engine} n.
Arguments VStr {Engine} s.
Arguments VObj {Engine} ref.
Arguments VEngine {Engine} e.

(** The exceptions this module can let escape.  [KeyError] is what a
    dictionary subscript raises on a missing key (the specification's
    KeyNotFoundError); [AttributeError] is what attribute access on [None]
    raises; [TypeError] is what a call raises whose arguments do not fit
    the callee's parameters; [ConfigurationError] is the specification's
    name for a rejected databases mapping, which nothing here raises;
    [UnknownEngineError] belongs to the routing policy; [ORMError] is
    anything raised inside the ORM library and passed through unchanged. *)
Inductive exception : Type :=
| AttributeError (obj attr : string)
| KeyError (key : string)
| TypeError (callee : string)
| ConfigurationError
| UnknownEngineError (name : string)
| ORMError (e : orm_error).

(** A positional argument of a library call: a value, or a dictionary
    passed as one object. *)
Inductive argument (Engine : Type) : Type :=
| ArgValue (v : value Engine)
| ArgDict (d : gmap string (value Engine)).

Arguments ArgValue {Engine} v.
Arguments ArgDict {Engine} d.

(** Python truthiness and the [or] operator on values. *)
Definition truthy {Engine} (v : value Engine) : bool :=
  match v with
  | VNone => false
  | VBool b => b
  | VInt n => negb (Z.eqb n 0)
  | VStr s => negb (String.eqb s EmptyString)
  | VObj _ => true
  | VEngine _ => true
  end.

Definition py_or {Engine} (a b : value Engine) : value Engine :=
  if truthy a then a else b.

(** [d.setdefault(k, v)]: insert only when the key is absent. *)
Definition setdefault {V} (k : string) (v : V) (d : gmap string V) : gmap string V :=
  match d !! k with
  | Some _ => d
  | None => <[k:=v]> d
  end.

(** [d.update] with the entries of [other] as keywords: the entries of [other] override those of [d]. *)
Definition update {V} (other d : gmap string V) : gmap string V :=
  other ∪ d.

(** [d[k]]: the value, or [KeyError]. *)
Definition subscript {V} (k : string) (d : gmap string V) : exception + V :=
  match d !! k with
  | Some v => inr v
  | None => inl (KeyError k)
  end.

(** ** The ORM library interface *)

Inductive ddl : Type := DDLCreateAll | DDLDropAll.

Class ORM (Engine : Type) : Type := {
  (** [sa.create_engine] on a call of the shape its signature has, the URL
      as the one positional argument and the options as keywords: a handle,
      or the library's error (for instance on a malformed URL). *)
  create_engine : string -> gmap string (value Engine) -> orm_error + Engine;
  (** [declarative_base(name=, cls=, metaclass=, metadata=)] on the class,
      metaclass and metadata it is given: [None] when the base class is
      built, or the error raised (for instance when what arrives as the
      metaclass is not a class). *)
  declarative_base_error : value Engine -> value Engine -> value Engine -> option orm_error;
  (** [get_cls_kwargs(Session)]: the keyword names the session constructor
      accepts, in the order the loop visits them. *)
  get_cls_kwargs_Session : list string;
  (** [Model.metadata.create_all] and [Model.metadata.drop_all] on the
      given positional and keyword arguments: [None] on success, or the
      library's error. *)
  metadata_ddl : ddl -> list (value Engine) -> gmap string (value Engine) -> option orm_error;
  (** A method of the scoped session invoked by name. *)
  session_method : string -> list (value Engine) -> gmap string (value Engine) -> orm_error + value Engine;
  (** [sa.__all__] followed by [sa.orm.__all__]. *)
  sa_all : list string;
  (** The attribute names the [SessionProxy] base class defines. *)
  session_proxy_attrs : list string
}.

Section Facade.
Context {Engine : Type} `{!ORM Engine}.

Abbreviation value := (value Engine).
Abbreviation dict := (gmap string value).

(** ** Objects *)

(** What [declarative_base(name, cls, metaclass, metadata)] was called with. *)
Record declarative : Type := {
  base_name : string;
  base_cls : value;
  base_metaclass : value;
  base_metadata : value
}.

(** Modelled from the spec: [routing.get_routing_class] is not part of the
    sources at hand.  The session class it returns is closed over the engine
    registry; the routing policy below decides with that registry. *)
Record routing_class : Type := {
  routing_engines : gmap string Engine
}.

Definition get_routing_class (engines : gmap string Engine) : routing_class :=
  {| routing_engines := engines |}.

(** A session built by the factory: its class, the keywords it was built
    with, and its unit of work (pending new, dirty and deleted objects). *)
Record session : Type := {
  session_class : routing_class;
  session_kw : dict;
  session_pending : list value
}.

(** [sessionmaker(class_=..., **kw)]. *)
Record sessionmaker_t : Type := {
  class_ : routing_class;
  kw : dict
}.

Definition sessionmaker (cls : routing_class) (options : dict) : sessionmaker_t :=
  {| class_ := cls; kw := options |}.

(** [scoped_session(factory, scopefunc)].  The factory is the very object
    stored in [self.Session]; it is kept once, in the facade, and the scoped
    session holds the per-scope registry of sessions. *)
Record scoped_session_t : Type := {
  registry : gmap nat session;
  scopefunc : value
}.

Definition scoped_session (scopefunc : value) : scoped_session_t :=
  {| registry := ∅; scopefunc := scopefunc |}.

(** The facade object.  [exported] holds the attribute names installed by
    [_include_sqlalchemy]. *)
Record SQLAlchemy : Type := {
  databases : option (list (string * string));
  Model : declarative;
  engine_options : dict;
  session_options : dict;
  engines : gmap string Engine;
  RoutingSession : routing_class;
  Session : sessionmaker_t;
  _session : scoped_session_t;
  exported : list string
}.

(** Calls made into the ORM library, in program order. *)
Inductive call : Type :=
| CreateEngine (positional : list (argument Engine)) (keywords : dict)
| ScopedRemove (scope : nat)
| ScopedConfigure (options : dict)
| SessionNew (scope : nat) (options : dict)
| SessionMethod (scope : nat) (name : string) (args : list value) (kwargs : dict)
| MetadataDDL (op : ddl) (args : list value) (kwargs : dict).

Definition is_CreateEngine (c : call) : bool :=
  match c with
  | CreateEngine _ _ => true
  | _ => false
  end.

(** ** The state-and-exception monad of the methods *)

Record world : Type := {
  self : SQLAlchemy;
  trace : list call
}.

Definition M (A : Type) : Type := world -> (exception + A) * world.

Definition ret {A} (a : A) : M A := fun w => (inr a, w).

Definition raise {A} (e : exception) : M A := fun w => (inl e, w).

Definition bind {A B} (m : M A) (k : A -> M B) : M B :=
  fun w =>
    match m w with
    | (inr a, w') => k a w'
    | (inl e, w') => (inl e, w')
    end.

Notation "'do' x <- m ; k" := (bind m (fun x => k))
  (at level 10, x name, m at level 100, k at level 200).

Definition get_self : M SQLAlchemy := fun w => (inr (self w), w).

Definition put_self (s : SQLAlchemy) : M unit :=
  fun w => (inr tt, {| self := s; trace := trace w |}).

Definition emit (c : call) : M unit :=
  fun w => (inr tt, {| self := self w; trace := trace w ++ [c] |}).

Definition lift {A} (r : exception + A) : M A := fun w => (r, w).

(** ** Construction *)

(** Modelled from the spec: [default_model.get_default_model_class] and
    [default_meta.DefaultMeta] are not part of the sources at hand; they are
    the default base-model mixin and the default model metaclass, kept as
    opaque class objects. *)
Definition get_default_model_class : value := VObj "default_model.Model".

Definition DefaultMeta : value := VObj "default_meta.DefaultMeta".

Definition declarative_base (name : string) (cls metaclass metadata : value)
    : exception + declarative :=
  match declarative_base_error cls metaclass metadata with
  | Some e => inl (ORMError e)
  | None =>
      inr {| base_name := name; base_cls := cls;
             base_metaclass := metaclass; base_metadata := metadata |}
  end.

(** [def _make_declarative_base(self, model_class, metaclass=None, metadata=None)]. *)
Definition _make_declarative_base (model_class metaclass metadata : value)
    : exception + declarative :=
  declarative_base "Model"
    (py_or model_class get_default_model_class)
    (py_or metaclass DefaultMeta)
    metadata.

(** One turn of the loop [for arg in get_cls_kwargs(Session)] on the pair
    (session_options, options). *)
Definition take_session_option (acc : dict * dict) (arg : string) : dict * dict :=
  match acc.2 !! arg with
  | Some v => (<[arg:=v]> acc.1, delete arg acc.2)
  | None => acc
  end.

(** [_set_session_options]: returns what it stores in [self.engine_options]
    and [self.session_options]. *)
Definition _set_session_options (options : dict) : dict * dict :=
  let session_options : dict := ∅ in
  let '(session_options, options) :=
    foldl take_session_option (session_options, options) get_cls_kwargs_Session in
  let options := setdefault "echo" (VBool false) options in
  let engine_options := options in
  let session_options := setdefault "autoflush" (VBool true) session_options in
  let session_options := setdefault "autocommit" (VBool false) session_options in
  (engine_options, session_options).

(** A call of [sa.create_engine], whose signature takes the URL as its one
    positional parameter and everything else as keywords: any other number
    of positional arguments is a [TypeError] of the call. *)
Definition sa_create_engine (positional : list (argument Engine)) (keywords : dict)
    : exception + Engine :=
  match positional with
  | [ArgValue (VStr url)] =>
      match create_engine url keywords with
      | inl e => inl (ORMError e)
      | inr h => inr h
      end
  | [_] => inl (ORMError "ArgumentError")
  | _ => inl (TypeError "create_engine")
  end.

(** The comprehension [{k: sa.create_engine(v, self.engine_options) for k, v
    in self.databases.items()}]: one call per item, in the order of the
    items, stopping at the first one that raises.  Each call passes the URL
    and the options dictionary, both positionally. *)
Fixpoint create_engines (items : list (string * string)) (options : dict)
    (acc : gmap string Engine) (tr : list call)
    : (exception + gmap string Engine) * list call :=
  match items with
  | [] => (inr acc, tr)
  | (k, v) :: rest =>
      let positional := [ArgValue (VStr v); ArgDict options] in
      let tr := tr ++ [CreateEngine positional ∅] in
      match sa_create_engine positional ∅ with
      | inl e => (inl e, tr)
      | inr h => create_engines rest options (<[k:=h]> acc) tr
      end
  end.

(** [hasattr(obj, key)] when [_include_sqlalchemy] runs: the attributes set
    by [__init__], the members of the class and of [SessionProxy], and the
    names already installed. *)
Definition own_attrs : list string :=
  ["databases"; "Model"; "engine_options"; "session_options"; "engines";
   "RoutingSession"; "Session"; "_session";
   "__init__"; "_set_session_options"; "_make_declarative_base"; "metadata";
   "create_all"; "drop_all"; "reconfigure"; "__repr__"].

Definition hasattr (installed : list string) (key : string) : bool :=
  bool_decide (key ∈ own_attrs ++ session_proxy_attrs ++ installed).

Definition _include_sqlalchemy : list string :=
  let installed :=
    foldl (fun acc key => if hasattr acc key then acc else acc ++ [key]) [] sa_all in
  if bool_decide ("event" ∈ installed) then installed else installed ++ ["event"].

(** Lines 84 to 88 of [__init__]: the session class, the factory and the
    scoped session are set up around the engines, and the library names are
    installed. *)
Definition assemble (databases : option (list (string * string))) (Model : declarative)
    (engine_options session_options : dict) (engines : gmap string Engine)
    (scopefunc : value) : SQLAlchemy :=
  let RoutingSession := get_routing_class engines in
  let Session := sessionmaker RoutingSession session_options in
  let _session := scoped_session scopefunc in
  {| databases := databases;
     Model := Model;
     engine_options := engine_options;
     session_options := session_options;
     engines := engines;
     RoutingSession := RoutingSession;
     Session := Session;
     _session := _session;
     exported := _include_sqlalchemy |}.

(** [SQLAlchemy.__init__(databases, metadata=, metaclass=, model_class=,
    scopefunc=, **options)], started on the trace [tr].  The declarative
    base is built first (line 80), then the options are split (line 82),
    and only then are the items of [databases] asked for (line 83). *)
Definition __init__ (databases : option (list (string * string)))
    (metadata metaclass model_class scopefunc : value) (options : dict)
    (tr : list call) : (exception + SQLAlchemy) * list call :=
  match _make_declarative_base model_class metadata metaclass with
  | inl e => (inl e, tr)
  | inr Model =>
      let '(engine_options, session_options) := _set_session_options options in
      match databases with
      | None => (inl (AttributeError "NoneType" "items"), tr)
      | Some items =>
          match create_engines items engine_options ∅ tr with
          | (inl e, tr) => (inl e, tr)
          | (inr engines, tr) =>
              (inr (assemble databases Model engine_options session_options
                      engines scopefunc), tr)
          end
      end
  end.

(** ** Attribute assignment on the facade *)

Definition with_session_options (v : dict) (s : SQLAlchemy) : SQLAlchemy :=
  {| databases := databases s; Model := Model s;
     engine_options := engine_options s; session_options := v;
     engines := engines s; RoutingSession := RoutingSession s;
     Session := Session s; _session := _session s; exported := exported s |}.

Definition with_Session (v : sessionmaker_t) (s : SQLAlchemy) : SQLAlchemy :=
  {| databases := databases s; Model := Model s;
     engine_options := engine_options s; session_options := session_options s;
     engines := engines s; RoutingSession := RoutingSession s;
     Session := v; _session := _session s; exported := exported s |}.

Definition with_registry (v : gmap nat session) (s : SQLAlchemy) : SQLAlchemy :=
  {| databases := databases s; Model := Model s;
     engine_options := engine_options s; session_options := session_options s;
     engines := engines s; RoutingSession := RoutingSession s;
     Session := Session s;
     _session := {| registry := v; scopefunc := scopefunc (_session s) |};
     exported := exported s |}.

(** ** The scoped session and its factory *)

(** In every method below [scope] is the key the scope function yields for
    the caller. *)

(** [scoped_session.remove()]: the caller's session, if any, is closed and
    dropped from the registry. *)
Definition scoped_remove (scope : nat) : M unit :=
  do _ <- emit (ScopedRemove scope);
  do s <- get_self;
  put_self (with_registry (delete scope (registry (_session s))) s).

(** [scoped_session.configure] hands its keywords to the factory,
    whose [configure] updates its stored keywords with them. *)
Definition scoped_configure (kwargs : dict) : M unit :=
  do _ <- emit (ScopedConfigure kwargs);
  do s <- get_self;
  put_self (with_Session
              {| class_ := class_ (Session s); kw := update kwargs (kw (Session s)) |} s).

(** Calling the scoped session: the caller's session, built by the factory
    from its stored keywords when the scope has none. *)
Definition scoped_call (scope : nat) : M session :=
  do s <- get_self;
  match registry (_session s) !! scope with
  | Some sess => ret sess
  | None =>
      let sess := {| session_class := class_ (Session s);
                     session_kw := kw (Session s);
                     session_pending := [] |} in
      do _ <- emit (SessionNew scope (kw (Session s)));
      do _ <- put_self (with_registry (<[scope:=sess]> (registry (_session s))) s);
      ret sess
  end.

(** ** Schema management and reconfiguration *)

Definition metadata_call (op : ddl) (args : list value) (kwargs : dict) : M unit :=
  do _ <- emit (MetadataDDL op args kwargs);
  match metadata_ddl op args kwargs with
  | None => ret tt
  | Some e => raise (ORMError e)
  end.

(** [def create_all(self, engine='default', *args, **kwargs)]; [engine] is
    [None] when the caller leaves the parameter out. *)
Definition create_all (engine : option string) (args : list value) (kwargs : dict) : M unit :=
  let engine := default "default" engine in
  do s <- get_self;
  do _engine <- lift (subscript engine (engines s));
  let kwargs := setdefault "bind" (VEngine _engine) kwargs in
  metadata_call DDLCreateAll args kwargs.

(** [def drop_all(self, engine='default', *args, **kwargs)]. *)
Definition drop_all (engine : option string) (args : list value) (kwargs : dict) : M unit :=
  let engine := default "default" engine in
  do s <- get_self;
  do _engine <- lift (subscript engine (engines s));
  let kwargs := setdefault "bind" (VEngine _engine) kwargs in
  metadata_call DDLDropAll args kwargs.

(** [def reconfigure(self, **kwargs)]. *)
Definition reconfigure (kwargs : dict) (scope : nat) : M unit :=
  do _ <- scoped_remove scope;
  do s <- get_self;
  do _ <- put_self (with_session_options (update kwargs (session_options s)) s);
  do s <- get_self;
  scoped_configure (session_options s).

(** ** Calling the schema methods *)






(** ** Session passthroughs *)

(** Modelled from the spec: [session_proxy.SessionProxy] is not part of the
    sources at hand.  The facade forwards a session operation to the
    currently scoped session.  The unit of work is the set of pending
    changes accumulated since the last flush or commit: [add] and [delete]
    extend it, [flush], [commit] and [rollback] empty it. *)
Definition unit_of_work (name : string) (args : list value) (pending : list value) : list value :=
  if bool_decide (name ∈ ["add"; "delete"]) then pending ++ args
  else if bool_decide (name ∈ ["flush"; "commit"; "rollback"]) then []
  else pending.

Definition session_call (name : string) (args : list value) (kwargs : dict) (scope : nat) : M value :=
  do sess <- scoped_call scope;
  do _ <- emit (SessionMethod scope name args kwargs);
  match session_method name args kwargs with
  | inl e => raise (ORMError e)
  | inr v =>
      let sess := {| session_class := session_class sess;
                     session_kw := session_kw sess;
                     session_pending := unit_of_work name args (session_pending sess) |} in
      do s <- get_self;
      do _ <- put_self (with_registry (<[scope:=sess]> (registry (_session s))) s);
      ret v
  end.

(** The public operations of the facade after construction. *)
Inductive operation : Type :=
| OpCreateAll (engine : option string) (args : list value) (kwargs : dict)
| OpDropAll (engine : option string) (args : list value) (kwargs : dict)
| OpReconfigure (kwargs : dict)
| OpSession (name : string) (args : list value) (kwargs : dict)
| OpRemove.

Definition run_op (scope : nat) (op : operation) : M unit :=
  match op with
  | OpCreateAll engine args kwargs => create_all engine args kwargs
  | OpDropAll engine args kwargs => drop_all engine args kwargs
  | OpReconfigure kwargs => reconfigure kwargs scope
  | OpSession name args kwargs => do _ <- session_call name args kwargs scope; ret tt
  | OpRemove => scoped_remove scope
  end.

(** A caller may catch an exception and go on: the next operation starts
    from the state the previous one left. *)
Definition run_ops (ops : list (nat * operation)) (w : world) : world :=
  foldl (fun w so => (run_op so.1 so.2 w).2) w ops.

(** A trace that grew by calls none of which creates an engine. *)
Definition grew_without_engines (before after : list call) : Prop :=
  ∃ extra, after = before ++ extra ∧ Forall (λ c, is_CreateEngine c = false) extra.


(** ** Routing policy *)

Inductive operation_kind : Type := ReadQuery | WriteFlush.

(** The bind hints of one operation: the call-site hint and the default
    bind of the entity type, each naming an engine. *)
Record hints : Type := {
  call_site : option string;
  type_default : option string
}.

Definition no_hints : hints := {| call_site := None; type_default := None |}.

(** The most specific hint wins. *)
Definition resolve_hint (h : hints) : option string :=
  match call_site h with
  | Some name => Some name
  | None => type_default h
  end.

(** Modelled from the spec: the routing decision of [routing.py], which is
    not part of the sources at hand.  An explicit hint is used, and must
    name a registered engine; otherwise a write goes to the default name,
    and so does a read of a session whose unit of work has pending writes;
    any other read prefers the configured read mapping. *)
Definition select_engine (read_mapping : option string) (kind : operation_kind)
    (h : hints) (sess : session) : exception + string :=
  match resolve_hint h with
  | Some name =>
      match routing_engines (session_class sess) !! name with
      | Some _ => inr name
      | None => inl (UnknownEngineError name)
      end
  | None =>
      match kind with
      | WriteFlush => inr "default"
      | ReadQuery =>
          match session_pending sess with
          | [] => inr (default "default" read_mapping)
          | _ :: _ => inr "default"
          end
      end
  end.

(** The engine handle a statement of the session is executed on. *)
Definition get_bind (read_mapping : option string) (kind : operation_kind)
    (h : hints) (sess : session) : exception + Engine :=
  match select_engine read_mapping kind h sess with
  | inl e => inl e
  | inr name => subscript name (routing_engines (session_class sess))
  end.

End Facade.

(** ** A concrete ORM for worked examples *)

(** Engine handles are named by the URL they were created from; the URL
    ["not a url"] is rejected; a [MetaData] object is rejected as a
    metaclass; the session constructor accepts the keywords of SQLAlchemy
    1.3; DDL and session methods succeed. *)
Module Sample.

Definition Engine : Type := string.

Definition sample_create_engine (url : string) (options : gmap string (value Engine))
    : orm_error + Engine :=
  if String.eqb url "not a url" then inl "ArgumentError" else inr url.

Definition sample_session_kwargs : list string :=
  ["bind"; "autoflush"; "expire_on_commit"; "_enable_transaction_accounting";
   "autocommit"; "twophase"; "weak_identity_map"; "binds"; "extension";
   "enable_baked_queries"; "info"; "query_cls"].

(** What arrives as the metaclass must be a class; a [MetaData] object is
    not one. *)
Definition sample_declarative_base_error (cls metaclass metadata : value Engine)
    : option orm_error :=
  match metaclass with
  | VObj "MetaData" => Some "TypeError"
  | _ => None
  end.

#[global] Instance sample_orm : ORM Engine := {|
  create_engine := sample_create_engine;
  declarative_base_error := sample_declarative_base_error;
  get_cls_kwargs_Session := sample_session_kwargs;
  metadata_ddl := fun _ _ _ => None;
  session_method := fun _ _ _ => inr VNone;
  sa_all := ["Column"; "Integer"; "String"; "create_engine"; "Session"; "sessionmaker"; "relationship"];
  session_proxy_attrs := ["query"; "add"; "delete"; "flush"; "commit"; "rollback"; "remove"]
|}.

Definition two_databases : list (string * string) :=
  [("default", "sqlite:///a.db"); ("replica", "sqlite:///b.db")].

Definition some_options : gmap string (value Engine) :=
  <["autoflush" := VBool false]> (<["pool_size" := VInt 5]> (<["twophase" := VBool true]> ∅)).

Definition plain_base : @declarative Engine :=
  {| base_name := "Model"; base_cls := get_default_model_class;
     base_metaclass := DefaultMeta; base_metadata := VNone |}.

(** A facade that holds two engines: what lines 84 to 88 set up around a
    registry with an engine for each entry of [two_databases], the registry
    line 83 is written to produce.  (As written, line 83 raises before it
    produces one; the facade is given here, not built by [__init__].) *)
Definition built_world : world :=
  {| self := assemble (Some two_databases) plain_base
               (_set_session_options some_options).1
               (_set_session_options some_options).2
               (<["default" := "sqlite:///a.db"]> (<["replica" := "sqlite:///b.db"]> ∅))
               VNone;
     trace := [] |}.

(** The facade [__init__] returns on an empty mapping, with a model class
    and a metaclass of the caller's. *)
Definition built_custom : (exception + SQLAlchemy) * list call :=
  __init__ (Some []) VNone (VObj "Meta") (VObj "Base") VNone some_options [].

Definition custom_facade : SQLAlchemy :=
  match built_custom with
  | (inr s, _) => s
  | (inl _, _) => self built_world
  end.

(** The world after scope 7 has added an object to its session. *)
Definition world_with_session : world :=
  run_ops [(7, OpSession "add" [VObj "user"] ∅)] built_world.

Definition session_with_pending : session :=
  match registry (_session (self world_with_session)) !! 7 with
  | Some sess => sess
  | None => {| session_class := get_routing_class ∅; session_kw := ∅; session_pending := [] |}
  end.

End Sample.

(** * Properties *)

(** ** Dictionaries *)

Section DictLemmas.
Context {V : Type}.
Implicit Types (d other : gmap string V) (k : string) (v : V).

Lemma lookup_setdefault_eq k v d :
  setdefault k v d !! k = Some (default v (d !! k)).
Proof.
  unfold setdefault. destruct (d !! k) as [x|] eqn:E; simpl.
  - exact E.
  - apply lookup_insert_eq.
Qed.

Lemma lookup_setdefault_ne k k' v d :
  k ≠ k' → setdefault k v d !! k' = d !! k'.
Proof.
  intros Hne. unfold setdefault. destruct (d !! k); [done|].
  by rewrite lookup_insert_ne.
Qed.

Lemma lookup_setdefault_Some k k' v x d :
  d !! k' = Some x → setdefault k v d !! k' = Some x.
Proof.
  intros Hx. destruct (decide (k = k')) as [->|Hne].
  - by rewrite lookup_setdefault_eq, Hx.
  - by rewrite lookup_setdefault_ne.
Qed.

Lemma lookup_update k other d :
  update other d !! k = match other !! k with Some v => Some v | None => d !! k end.
Proof.
  unfold update. rewrite lookup_union.
  destruct (other !! k), (d !! k); reflexivity.
Qed.

Lemma subscript_Some k v d : d !! k = Some v → subscript k d = inr v.
Proof. unfold subscript. by intros ->. Qed.

Lemma subscript_None k d : d !! k = None → subscript k d = inl (KeyError k).
Proof. unfold subscript. by intros ->. Qed.

End DictLemmas.

(** ** Splitting the options bag *)

Section Options.
Context {Engine : Type} `{!ORM Engine}.
Abbreviation dict := (gmap string (value Engine)).
Implicit Types (options so o : dict) (k arg : string).

(** What the loop over the session constructor's keywords leaves in the two
    dictionaries, key by key. *)
Lemma foldl_take_session_option (kws : list string) so o k :
  let r := foldl take_session_option (so, o) kws in
  r.2 !! k = (if bool_decide (k ∈ kws) then None else o !! k)
  ∧ r.1 !! k = (if bool_decide (k ∈ kws)
                then match o !! k with Some v => Some v | None => so !! k end
                else so !! k).
Proof.
  revert so o. induction kws as [|arg kws IH]; intros so o; simpl.
  - split; reflexivity.
  - destruct (IH (take_session_option (so, o) arg).1 (take_session_option (so, o) arg).2)
      as [IH2 IH1].
    rewrite <- surjective_pairing in IH2, IH1.
    rewrite IH2, IH1. clear IH IH1 IH2.
    unfold take_session_option; simpl.
    destruct (decide (k = arg)) as [->|Hne].
    + rewrite (bool_decide_true (arg ∈ arg :: kws)) by apply list_elem_of_here.
      destruct (o !! arg) as [v|] eqn:E; simpl.
      * rewrite lookup_delete_eq, lookup_insert_eq.
        split; destruct (bool_decide (arg ∈ kws)); reflexivity.
      * rewrite E. split; destruct (bool_decide (arg ∈ kws)); reflexivity.
    + assert (Hiff : k ∈ arg :: kws ↔ k ∈ kws).
      { rewrite elem_of_cons. split; [intros [?|?]; [contradiction|assumption] | by right]. }
      rewrite (bool_decide_ext _ _ Hiff).
      destruct (o !! arg) as [v|] eqn:E; simpl.
      * rewrite lookup_delete_ne, lookup_insert_ne by done. done.
      * done.
Qed.

Lemma engine_options_lookup options k :
  (_set_session_options options).1 !! k =
  setdefault "echo" (VBool false)
    (foldl take_session_option (∅, options) get_cls_kwargs_Session).2 !! k.
Proof.
  unfold _set_session_options.
  destruct (foldl take_session_option (∅, options) get_cls_kwargs_Session); reflexivity.
Qed.

Lemma session_options_lookup options k :
  (_set_session_options options).2 !! k =
  setdefault "autocommit" (VBool false)
    (setdefault "autoflush" (VBool true)
       (foldl take_session_option (∅, options) get_cls_kwargs_Session).1) !! k.
Proof.
  unfold _set_session_options.
  destruct (foldl take_session_option (∅, options) get_cls_kwargs_Session); reflexivity.
Qed.

(** C4.  For every options bag, each supplied key the session constructor
    accepts lands in the session options with its value, every other
    supplied key lands in the engine options with its value, and the engine
    options hold [echo = False] when [echo] was not supplied.  With the
    session constructor of the ORM at hand, which accepts [autoflush] and
    [autocommit] and does not accept [echo], no key is in both sets. *)
Theorem set_session_options_splits options :
  let engine_options := (_set_session_options options).1 in
  let session_options := (_set_session_options options).2 in
  (∀ k v, options !! k = Some v → k ∈ get_cls_kwargs_Session →
          session_options !! k = Some v)
  ∧ (∀ k v, options !! k = Some v → k ∉ get_cls_kwargs_Session →
            engine_options !! k = Some v)
  ∧ (options !! "echo" = None → engine_options !! "echo" = Some (VBool false))
  ∧ ("autoflush" ∈ get_cls_kwargs_Session →
     "autocommit" ∈ get_cls_kwargs_Session →
     "echo" ∉ get_cls_kwargs_Session →
     ∀ k, ¬ (is_Some (session_options !! k) ∧ is_Some (engine_options !! k))).
Proof.
  intros engine_options session_options. split; [|split; [|split]].
  - intros k v Hk Hin. subst session_options. rewrite session_options_lookup.
    do 2 apply lookup_setdefault_Some.
    destruct (foldl_take_session_option get_cls_kwargs_Session ∅ options k) as [_ ->].
    rewrite bool_decide_true by done. by rewrite Hk.
  - intros k v Hk Hout. subst engine_options. rewrite engine_options_lookup.
    apply lookup_setdefault_Some.
    destruct (foldl_take_session_option get_cls_kwargs_Session ∅ options k) as [-> _].
    by rewrite bool_decide_false.
  - intros Hnone. subst engine_options. rewrite engine_options_lookup.
    rewrite lookup_setdefault_eq.
    destruct (foldl_take_session_option get_cls_kwargs_Session ∅ options "echo") as [-> _].
    destruct (bool_decide _); [done|]. by rewrite Hnone.
  - intros Hflush Hcommit Hecho k [[x Hx] [y Hy]].
    destruct (decide (k ∈ get_cls_kwargs_Session)) as [Hin|Hout].
    + subst engine_options. rewrite engine_options_lookup in Hy.
      rewrite lookup_setdefault_ne in Hy by (intros <-; contradiction).
      destruct (foldl_take_session_option get_cls_kwargs_Session ∅ options k) as [Hk _].
      rewrite Hk, bool_decide_true in Hy by done. discriminate.
    + subst session_options. rewrite session_options_lookup in Hx.
      rewrite !lookup_setdefault_ne in Hx by (intros <-; contradiction).
      destruct (foldl_take_session_option get_cls_kwargs_Session ∅ options k) as [_ Hk].
      rewrite Hk, bool_decide_false in Hx by done. discriminate.
Qed.

(** C9.  When [autoflush] is not supplied the stored session options hold
    [autoflush = True], and when [autocommit] is not supplied they hold
    [autocommit = False]; so both defaults are there when neither is
    supplied.  A value supplied for either key is stored unchanged, the
    session constructor accepting that keyword. *)
Theorem session_defaults options :
  let session_options := (_set_session_options options).2 in
  (options !! "autoflush" = None → session_options !! "autoflush" = Some (VBool true))
  ∧ (options !! "autocommit" = None → session_options !! "autocommit" = Some (VBool false))
  ∧ ("autoflush" ∈ get_cls_kwargs_Session →
     ∀ v, options !! "autoflush" = Some v → session_options !! "autoflush" = Some v)
  ∧ ("autocommit" ∈ get_cls_kwargs_Session →
     ∀ v, options !! "autocommit" = Some v → session_options !! "autocommit" = Some v).
Proof.
  intros session_options. subst session_options.
  rewrite !session_options_lookup.
  rewrite (lookup_setdefault_ne "autocommit" "autoflush") by done.
  rewrite !lookup_setdefault_eq.
  rewrite (lookup_setdefault_ne "autoflush" "autocommit") by done.
  destruct (foldl_take_session_option get_cls_kwargs_Session ∅ options "autoflush") as [_ ->].
  destruct (foldl_take_session_option get_cls_kwargs_Session ∅ options "autocommit") as [_ ->].
  split; [|split; [|split]].
  - intros ->. rewrite lookup_empty. by destruct (bool_decide _).
  - intros ->. rewrite lookup_empty. by destruct (bool_decide _).
  - intros Hin v ->. by rewrite bool_decide_true.
  - intros Hin v ->. by rewrite bool_decide_true.
Qed.

End Options.

Lemma set_session_options_splits_witness :
  let engine_options := (_set_session_options Sample.some_options).1 in
  let session_options := (_set_session_options Sample.some_options).2 in
  session_options !! "autoflush" = Some (VBool false)
  ∧ session_options !! "twophase" = Some (VBool true)
  ∧ engine_options !! "pool_size" = Some (VInt 5)
  ∧ engine_options !! "echo" = Some (VBool false)
  ∧ (∀ k, ¬ (is_Some (session_options !! k) ∧ is_Some (engine_options !! k))).
Proof.
  intros engine_options session_options.
  destruct (set_session_options_splits (ORM0 := Sample.sample_orm) Sample.some_options)
    as (Hso & Heo & Hecho & Hdisjoint).
  fold engine_options in Heo, Hecho, Hdisjoint.
  fold session_options in Hso, Hdisjoint.
  split; [|split; [|split; [|split]]].
  - apply Hso; [vm_compute; reflexivity | compute_done].
  - apply Hso; [vm_compute; reflexivity | compute_done].
  - apply Heo; [vm_compute; reflexivity | compute_done].
  - apply Hecho. vm_compute. reflexivity.
  - apply Hdisjoint; compute_done.
Defined.

Lemma session_defaults_witness :
  let session_options := (_set_session_options Sample.some_options).2 in
  session_options !! "autoflush" = Some (VBool false)
  ∧ session_options !! "autocommit" = Some (VBool false).
Proof.
  intros session_options.
  destruct (session_defaults (ORM0 := Sample.sample_orm) Sample.some_options)
    as (_ & Hcommit & Hflush & _).
  fold session_options in Hcommit, Hflush.
  split.
  - apply Hflush; [compute_done | vm_compute; reflexivity].
  - apply Hcommit. vm_compute. reflexivity.
Defined.

(** The split of [Sample.some_options], computed. *)
Example sample_split :
  (_set_session_options Sample.some_options).1
    = <["echo" := VBool false]> (<["pool_size" := VInt 5]> ∅)
  ∧ (_set_session_options Sample.some_options).2
    = <["autocommit" := VBool false]>
        (<["autoflush" := VBool false]> (<["twophase" := VBool true]> ∅)).
Proof. split; vm_compute; reflexivity. Qed.

(** ** Engine creation *)

Section Construction.
Context {Engine : Type} `{!ORM Engine}.
Implicit Types (items : list (string * string)) (acc engines : gmap string Engine)
  (tr : list (@call Engine)) (md mc cls sf : value Engine)
  (options : gmap string (value Engine)).

(** The call the comprehension makes, two positional arguments, does not
    fit the signature of [create_engine], whatever the URL and options. *)
Lemma create_engines_cons k url rest options acc tr :
  create_engines ((k, url) :: rest) options acc tr
  = (inl (TypeError "create_engine"),
     tr ++ [CreateEngine [ArgValue (VStr url); ArgDict options] ∅]).
Proof. reflexivity. Qed.

(** So the comprehension only comes through when there is no item. *)
Lemma create_engines_inr items options acc tr engines tr' :
  create_engines items options acc tr = (inr engines, tr') →
  items = [] ∧ engines = acc ∧ tr' = tr.
Proof.
  destruct items as [|[k v] rest]; simpl; [|discriminate].
  by intros [= <- <-].
Qed.

(** What a successful construction went through. *)
Lemma init_inr (databases : option (list (string * string))) md mc cls sf options tr s tr' :
  __init__ databases md mc cls sf options tr = (inr s, tr') →
  ∃ base,
    _make_declarative_base cls md mc = inr base
    ∧ databases = Some []
    ∧ tr' = tr
    ∧ s = assemble (Some []) base (_set_session_options options).1
            (_set_session_options options).2 ∅ sf.
Proof.
  unfold __init__.
  destruct (_make_declarative_base cls md mc) as [e|base]; [discriminate|].
  destruct (_set_session_options options) as [eo so]; simpl.
  destruct databases as [items|]; [|discriminate].
  destruct (create_engines items eo ∅ tr) as [[e|engs] tr0] eqn:Hrun; [discriminate|].
  apply create_engines_inr in Hrun as (-> & -> & ->).
  intros [= <- <-]. by exists base.
Qed.

End Construction.

(** ** The methods, step by step *)

Section Methods.
Context {Engine : Type} `{!ORM Engine}.
Abbreviation pyvalue := (value Engine).
Abbreviation pydict := (gmap string (value Engine)).
Implicit Types (w : @world Engine) (kwargs : pydict) (args : list pyvalue)
  (engine : option string) (scope : nat).

Ltac unfold_methods :=
  unfold run_op, create_all, drop_all, reconfigure, session_call, scoped_call,
    scoped_remove, scoped_configure, metadata_call, bind, get_self, put_self,
    emit, lift, ret, raise; simpl.

Lemma grew_refl (t : list (@call Engine)) : grew_without_engines t t.
Proof. exists []. by rewrite app_nil_r. Qed.

Lemma grew_trans (t1 t2 t3 : list (@call Engine)) :
  grew_without_engines t1 t2 → grew_without_engines t2 t3 → grew_without_engines t1 t3.
Proof.
  intros (e1 & -> & H1) (e2 & -> & H2). exists (e1 ++ e2).
  split; [by rewrite app_assoc | by apply Forall_app].
Qed.

Lemma grew_snoc (t : list (@call Engine)) c :
  is_CreateEngine c = false → grew_without_engines t (t ++ [c]).
Proof. intros Hc. exists [c]. split; [done | by constructor]. Qed.

(** The schema operations, when the name is not registered: the lookup
    raises and nothing else happens. *)
Lemma create_all_unregistered w engine args kwargs :
  engines (self w) !! default "default" engine = None →
  create_all engine args kwargs w = (inl (KeyError (default "default" engine)), w).
Proof. intros Hnone. unfold_methods. by rewrite (subscript_None _ _ Hnone). Qed.

Lemma drop_all_unregistered w engine args kwargs :
  engines (self w) !! default "default" engine = None →
  drop_all engine args kwargs w = (inl (KeyError (default "default" engine)), w).
Proof. intros Hnone. unfold_methods. by rewrite (subscript_None _ _ Hnone). Qed.

(** The schema operations, when the name is registered: one call of the
    DDL executor, with [bind] defaulted to the engine found. *)
Lemma create_all_registered w engine args kwargs h :
  engines (self w) !! default "default" engine = Some h →
  create_all engine args kwargs w =
    (match metadata_ddl DDLCreateAll args (setdefault "bind" (VEngine h) kwargs) with
     | None => inr tt
     | Some e => inl (ORMError e)
     end,
     {| self := self w;
        trace := trace w ++ [MetadataDDL DDLCreateAll args (setdefault "bind" (VEngine h) kwargs)] |}).
Proof.
  intros Hsome. unfold_methods. rewrite (subscript_Some _ _ _ Hsome).
  by destruct (metadata_ddl _ _ _).
Qed.

Lemma drop_all_registered w engine args kwargs h :
  engines (self w) !! default "default" engine = Some h →
  drop_all engine args kwargs w =
    (match metadata_ddl DDLDropAll args (setdefault "bind" (VEngine h) kwargs) with
     | None => inr tt
     | Some e => inl (ORMError e)
     end,
     {| self := self w;
        trace := trace w ++ [MetadataDDL DDLDropAll args (setdefault "bind" (VEngine h) kwargs)] |}).
Proof.
  intros Hsome. unfold_methods. rewrite (subscript_Some _ _ _ Hsome).
  by destruct (metadata_ddl _ _ _).
Qed.

(** [reconfigure], computed. *)
Lemma reconfigure_run w kwargs scope :
  reconfigure kwargs scope w =
    (inr tt,
     {| self :=
          with_Session
            {| class_ := class_ (Session (self w));
               kw := update (update kwargs (session_options (self w))) (kw (Session (self w))) |}
            (with_session_options (update kwargs (session_options (self w)))
               (with_registry (delete scope (registry (_session (self w)))) (self w)));
        trace := trace w ++ [ScopedRemove scope;
                             ScopedConfigure (update kwargs (session_options (self w)))] |}).
Proof. unfold_methods. by rewrite <- app_assoc. Qed.

(** No operation touches the engine registry or the databases mapping, and
    none creates an engine. *)
Lemma run_op_frame scope (op : @operation Engine) w :
  engines (self (run_op scope op w).2) = engines (self w)
  ∧ databases (self (run_op scope op w).2) = databases (self w)
  ∧ grew_without_engines (trace w) (trace (run_op scope op w).2).
Proof.
  destruct op as [engine args kwargs|engine args kwargs|kwargs|name args kwargs|].
  - destruct (engines (self w) !! default "default" engine) as [h|] eqn:E; simpl.
    + rewrite (create_all_registered _ _ _ _ _ E); simpl. auto using grew_snoc.
    + rewrite (create_all_unregistered _ _ _ _ E); simpl. auto using grew_refl.
  - destruct (engines (self w) !! default "default" engine) as [h|] eqn:E; simpl.
    + rewrite (drop_all_registered _ _ _ _ _ E); simpl. auto using grew_snoc.
    + rewrite (drop_all_unregistered _ _ _ _ E); simpl. auto using grew_refl.
  - unfold run_op. rewrite reconfigure_run; simpl.
    split; [done|split; [done|]].
    exists [ScopedRemove scope; ScopedConfigure (update kwargs (session_options (self w)))].
    split; [done | by repeat constructor].
  - unfold_methods.
    destruct (registry (_session (self w)) !! scope) as [sess|]; simpl;
      destruct (session_method name args kwargs) as [e|v]; simpl;
      (split; [done|split; [done|]]).
    + by apply grew_snoc.
    + by apply grew_snoc.
    + eapply grew_trans; by apply grew_snoc.
    + eapply grew_trans; by apply grew_snoc.
  - unfold_methods. split; [done|split; [done|]]. by apply grew_snoc.
Qed.

Lemma run_ops_frame (ops : list (nat * @operation Engine)) w :
  engines (self (run_ops ops w)) = engines (self w)
  ∧ databases (self (run_ops ops w)) = databases (self w)
  ∧ grew_without_engines (trace w) (trace (run_ops ops w)).
Proof.
  revert w. induction ops as [|[scope op] ops IH]; intros w; simpl.
  - auto using grew_refl.
  - destruct (IH (run_op scope op w).2) as (He & Hd & Ht).
    destruct (run_op_frame scope op w) as (He' & Hd' & Ht').
    unfold run_ops in *. simpl in *.
    rewrite He, Hd, He', Hd'. eauto using grew_trans.
Qed.

End Methods.

(** ** The facade's contract *)

Section Contract.
Context {Engine : Type} `{!ORM Engine}.
Implicit Types (w : @world Engine) (kwargs options : gmap string (value Engine)) (args : list (value Engine))
  (engine : option string) (scope : nat) (dbs : list (string * string))
  (md mc cls sf : value Engine) (tr : list (@call Engine)).

(** C1, as the code has it.  Construction validates nothing: whatever the
    databases argument, it does not fail with a [ConfigurationError].  The
    declarative base is built first; once it is built, construction without
    a databases mapping fails with the [AttributeError] of asking [None]
    for its items, and construction on an empty mapping succeeds, with an
    empty engine registry. *)
Theorem construction_outcome md mc cls sf options tr :
  (∀ databases,
     (__init__ databases md mc cls sf options tr).1 ≠ inl ConfigurationError)
  ∧ (∀ base, _make_declarative_base cls md mc = inr base →
       __init__ None md mc cls sf options tr
         = (inl (AttributeError "NoneType" "items"), tr)
       ∧ ∃ s, __init__ (Some []) md mc cls sf options tr = (inr s, tr)
              ∧ engines s = ∅ ∧ databases s = Some []).
Proof.
  split.
  - intros databases. unfold __init__, _make_declarative_base, declarative_base.
    destruct (declarative_base_error _ _ _); [done|].
    destruct (_set_session_options options) as [eo so]; simpl.
    destruct databases as [[|[k url] rest]|]; done.
  - intros base Hbase. unfold __init__. rewrite Hbase.
    destruct (_set_session_options options) as [eo so]; simpl.
    split; [done|]. eexists. split; [reflexivity|]. done.
Qed.

(** C8.  Whatever sequence of public operations runs on the facade, raising
    or not, the engines mapping and the databases mapping are afterwards
    what they were before. *)
Theorem registry_read_only (ops : list (nat * @operation Engine)) w :
  engines (self (run_ops ops w)) = engines (self w)
  ∧ databases (self (run_ops ops w)) = databases (self w).
Proof. destruct (run_ops_frame ops w) as (He & Hd & _). done. Qed.

(** C3.  With a name that is not a key of the registry, [create_all] and
    [drop_all] raise [KeyError] on that name and do nothing else: the state
    and the trace are untouched, so nothing is tried again.  With a
    registered name they raise no [KeyError]. *)
Theorem schema_unknown_engine_raises w name args kwargs :
  (engines (self w) !! name = None →
     create_all (Some name) args kwargs w = (inl (KeyError name), w)
     ∧ drop_all (Some name) args kwargs w = (inl (KeyError name), w))
  ∧ (is_Some (engines (self w) !! name) →
     ∀ k, (create_all (Some name) args kwargs w).1 ≠ inl (KeyError k)
          ∧ (drop_all (Some name) args kwargs w).1 ≠ inl (KeyError k)).
Proof.
  split.
  - intros Hnone. split.
    + by apply (create_all_unregistered w (Some name)).
    + by apply (drop_all_unregistered w (Some name)).
  - intros [h Hsome] k.
    rewrite (create_all_registered w (Some name) _ _ h Hsome).
    rewrite (drop_all_registered w (Some name) _ _ h Hsome). simpl.
    split; by destruct (metadata_ddl _ _ _).
Qed.


(** C10.  When the caller passes [bind]: with a registered engine name the
    DDL executor receives the caller's keyword arguments as they are, the
    caller's [bind] included; with an unregistered name the lookup raises
    [KeyError] all the same and the executor is not called.  Without a
    caller's [bind] the engine found by name is the one installed. *)
Theorem schema_bind_precedence w name args kwargs b :
  kwargs !! "bind" = Some b →
  (∀ h, engines (self w) !! name = Some h →
     trace (create_all (Some name) args kwargs w).2
       = trace w ++ [MetadataDDL DDLCreateAll args kwargs]
     ∧ trace (drop_all (Some name) args kwargs w).2
       = trace w ++ [MetadataDDL DDLDropAll args kwargs])
  ∧ (engines (self w) !! name = None →
     create_all (Some name) args kwargs w = (inl (KeyError name), w)
     ∧ drop_all (Some name) args kwargs w = (inl (KeyError name), w))
  ∧ (∀ h, engines (self w) !! name = Some h →
     trace (create_all (Some name) args (delete "bind" kwargs) w).2
       = trace w ++ [MetadataDDL DDLCreateAll args (<["bind" := VEngine h]> (delete "bind" kwargs))]
     ∧ trace (drop_all (Some name) args (delete "bind" kwargs) w).2
       = trace w ++ [MetadataDDL DDLDropAll args (<["bind" := VEngine h]> (delete "bind" kwargs))]).
Proof.
  intros Hbind. split; [|split].
  - intros h Hsome.
    rewrite (create_all_registered w (Some name) _ _ h Hsome).
    rewrite (drop_all_registered w (Some name) _ _ h Hsome). simpl.
    unfold setdefault. by rewrite Hbind.
  - intros Hnone. split.
    + by apply (create_all_unregistered w (Some name)).
    + by apply (drop_all_unregistered w (Some name)).
  - intros h Hsome.
    rewrite (create_all_registered w (Some name) _ _ h Hsome).
    rewrite (drop_all_registered w (Some name) _ _ h Hsome). simpl.
    unfold setdefault. by rewrite lookup_delete_eq.
Qed.

(** C5.  [reconfigure] never raises.  It calls the scoped session's
    [remove] for the calling scope and then its [configure], and what
    [configure] receives is the stored session options already merged with
    the new ones.  Afterwards the calling scope has no session, the stored
    session options are the merged set, in which a new value overrides the
    stored one, and every session the factory builds from then on is built
    with the merged options. *)
Theorem reconfigure_merges_options w kwargs scope :
  let merged := update kwargs (session_options (self w)) in
  let w' := (reconfigure kwargs scope w).2 in
  (reconfigure kwargs scope w).1 = inr tt
  ∧ trace w' = trace w ++ [ScopedRemove scope; ScopedConfigure merged]
  ∧ registry (_session (self w')) !! scope = None
  ∧ session_options (self w') = merged
  ∧ (∀ k, merged !! k =
          match kwargs !! k with
          | Some v => Some v
          | None => session_options (self w) !! k
          end)
  ∧ (∀ w2 scope' sess w3,
       Session (self w2) = Session (self w') →
       registry (_session (self w2)) !! scope' = None →
       scoped_call scope' w2 = (inr sess, w3) →
       ∀ k v, merged !! k = Some v → session_kw sess !! k = Some v).
Proof.
  intros merged w'. subst merged w'. rewrite reconfigure_run. simpl.
  split; [done|split; [done|split; [|split; [done|split]]]].
  - apply lookup_delete_eq.
  - intros k. apply lookup_update.
  - intros w2 scope' sess w3 HS Hnone Hcall k v Hk.
    unfold scoped_call, bind, get_self, put_self, emit, ret in Hcall. simpl in Hcall.
    rewrite Hnone in Hcall. simpl in Hcall. injection Hcall as <- _. simpl.
    rewrite HS. simpl. by rewrite lookup_update, Hk.
Qed.


End Contract.

(** ** The contract at work on the sample ORM *)

(** C1 as stated fails: an empty databases mapping is accepted, and
    construction returns a facade instead of raising. *)
Lemma empty_mapping_constructs :
  ∃ s, __init__ (ORM0 := Sample.sample_orm) (Some []) VNone VNone VNone VNone ∅ []
       = (inr s, [])
       ∧ engines s = ∅.
Proof. eexists. split; vm_compute; reflexivity. Qed.

Lemma construction_outcome_witness :
  __init__ (ORM0 := Sample.sample_orm) None VNone VNone VNone VNone Sample.some_options []
    = (inl (AttributeError "NoneType" "items"), [])
  ∧ ∃ s, __init__ (ORM0 := Sample.sample_orm) (Some []) VNone VNone VNone VNone
           Sample.some_options [] = (inr s, [])
         ∧ engines s = ∅ ∧ databases s = Some [].
Proof.
  apply (proj2 (construction_outcome (ORM0 := Sample.sample_orm)
                  VNone VNone VNone VNone Sample.some_options [])
           Sample.plain_base).
  reflexivity.
Defined.

(** C6, on the usage the class documents.  Construction on a mapping of two
    names to URLs calls [create_engine] once, for the first entry, with the
    URL and the engine options as two positional arguments; the call raises
    [TypeError], no engine handle is created for either entry and no facade
    is returned. *)
Theorem construction_on_entries_raises :
  __init__ (ORM0 := Sample.sample_orm)
    (Some [("default", "sqlite:///a.db"); ("replica", "sqlite:///b.db")])
    VNone VNone VNone VNone ∅ []
  = (inl (TypeError "create_engine"),
     [CreateEngine [ArgValue (VStr "sqlite:///a.db");
                    ArgDict (<["echo" := VBool false]> ∅)] ∅]).
Proof. vm_compute. reflexivity. Qed.

Lemma schema_unknown_engine_raises_witness :
  (create_all (Some "archive") [] ∅ Sample.built_world
     = (inl (KeyError "archive"), Sample.built_world)
   ∧ drop_all (Some "archive") [] ∅ Sample.built_world
     = (inl (KeyError "archive"), Sample.built_world))
  ∧ (∀ k, (create_all (Some "replica") [] ∅ Sample.built_world).1 ≠ inl (KeyError k)
          ∧ (drop_all (Some "replica") [] ∅ Sample.built_world).1 ≠ inl (KeyError k)).
Proof.
  split.
  - apply (proj1 (schema_unknown_engine_raises Sample.built_world "archive" [] ∅)).
    vm_compute. reflexivity.
  - apply (proj2 (schema_unknown_engine_raises Sample.built_world "replica" [] ∅)).
    exists "sqlite:///b.db". vm_compute. reflexivity.
Defined.



Lemma schema_bind_precedence_witness :
  let w := Sample.built_world in
  let args : list (value Sample.Engine) := [] in
  let kwargs : gmap string (value Sample.Engine) :=
    {[ "bind" := VEngine "sqlite:///other.db" ]} in
  (trace (create_all (Some "replica") args kwargs w).2
     = trace w ++ [MetadataDDL DDLCreateAll args kwargs]
   ∧ trace (drop_all (Some "replica") args kwargs w).2
     = trace w ++ [MetadataDDL DDLDropAll args kwargs])
  ∧ (create_all (Some "archive") args kwargs w = (inl (KeyError "archive"), w)
     ∧ drop_all (Some "archive") args kwargs w = (inl (KeyError "archive"), w)).
Proof.
  intros w args kwargs. split.
  - apply (proj1 (schema_bind_precedence w "replica" args kwargs
                    (VEngine "sqlite:///other.db") eq_refl) "sqlite:///b.db").
    vm_compute. reflexivity.
  - apply (proj1 (proj2 (schema_bind_precedence w "archive" args kwargs
                           (VEngine "sqlite:///other.db") eq_refl))).
    vm_compute. reflexivity.
Defined.

Lemma reconfigure_merges_options_witness :
  let w := Sample.world_with_session in
  let w' := (reconfigure {[ "autocommit" := VBool true ]} 7 w).2 in
  is_Some (registry (_session (self w)) !! 7)
  ∧ registry (_session (self w')) !! 7 = None
  ∧ ∃ sess w3, scoped_call 7 w' = (inr sess, w3)
      ∧ session_kw sess !! "autocommit" = Some (VBool true)
      ∧ session_kw sess !! "autoflush" = Some (VBool false).
Proof.
  intros w w'.
  destruct (reconfigure_merges_options w {[ "autocommit" := VBool true ]} 7)
    as (_ & _ & Hgone & _ & _ & Hnew).
  fold w' in Hgone, Hnew.
  split; [eexists; vm_compute; reflexivity|].
  split; [exact Hgone|].
  destruct (scoped_call 7 w') as [[e|sess] w3] eqn:Hcall.
  - exfalso. vm_compute in Hcall. discriminate Hcall.
  - exists sess, w3. split; [reflexivity|].
    split; apply (Hnew w' 7 sess w3 eq_refl Hgone Hcall); vm_compute; reflexivity.
Defined.



(** The same read on a session with nothing pending goes to the read
    mapping, and the pending session's read reaches the default engine. *)
Example sample_routing :
  select_engine (Some "replica") ReadQuery no_hints
    {| session_class := session_class Sample.session_with_pending;
       session_kw := ∅; session_pending := [] |} = inr "replica"
  ∧ get_bind (Some "replica") ReadQuery no_hints Sample.session_with_pending
    = inr "sqlite:///a.db".
Proof. split; vm_compute; reflexivity. Qed.

(** [create_all] on a registered and on an unregistered name. *)
Example sample_create_all :
  (create_all (Some "replica") [] ∅ Sample.built_world).1 = inr tt
  ∧ trace (create_all (Some "replica") [] ∅ Sample.built_world).2
    = trace Sample.built_world
      ++ [MetadataDDL DDLCreateAll [] {[ "bind" := VEngine "sqlite:///b.db" ]}]
  ∧ (create_all (Some "archive") [] {[ "bind" := VEngine "sqlite:///b.db" ]}
       Sample.built_world).1 = inl (KeyError "archive").
Proof. repeat split; vm_compute; reflexivity. Qed.

(** * Further properties of the module *)

(** ** More on the options bag *)

Section OptionsMore.
Context {Engine : Type} `{!ORM Engine}.
Implicit Types (options so o : gmap string (value Engine)) (k : string).

(** X1.  The loop [for arg in get_cls_kwargs(Session)] visits a set, whose order
    Python does not fix: two enumerations of the same keywords, with or
    without repetitions, leave the same two dictionaries. *)
Theorem session_keyword_order_irrelevant (kws1 kws2 : list string) so o :
  (∀ k, k ∈ kws1 ↔ k ∈ kws2) →
  foldl take_session_option (so, o) kws1 = foldl take_session_option (so, o) kws2.
Proof.
  intros Hsame.
  rewrite (surjective_pairing (foldl take_session_option (so, o) kws1)).
  rewrite (surjective_pairing (foldl take_session_option (so, o) kws2)).
  f_equal; apply map_eq; intros k.
  - destruct (foldl_take_session_option kws1 so o k) as [_ ->].
    destruct (foldl_take_session_option kws2 so o k) as [_ ->].
    by rewrite (bool_decide_ext _ _ (Hsame k)).
  - destruct (foldl_take_session_option kws1 so o k) as [-> _].
    destruct (foldl_take_session_option kws2 so o k) as [-> _].
    by rewrite (bool_decide_ext _ _ (Hsame k)).
Qed.

(** X2.  Nothing is invented and nothing is lost.  The keys of the session
    options are the supplied keys the session constructor accepts plus
    [autoflush] and [autocommit]; the keys of the engine options are the
    other supplied keys plus [echo]; and an entry of either dictionary is a
    supplied entry or one of the three defaults. *)
Theorem set_session_options_exact options :
  let engine_options := (_set_session_options options).1 in
  let session_options := (_set_session_options options).2 in
  (∀ k, is_Some (session_options !! k) ↔
        (is_Some (options !! k) ∧ k ∈ get_cls_kwargs_Session)
        ∨ k = "autoflush" ∨ k = "autocommit")
  ∧ (∀ k, is_Some (engine_options !! k) ↔
          (is_Some (options !! k) ∧ k ∉ get_cls_kwargs_Session) ∨ k = "echo")
  ∧ (∀ k v, session_options !! k = Some v →
            options !! k = Some v
            ∨ (k = "autoflush" ∧ v = VBool true)
            ∨ (k = "autocommit" ∧ v = VBool false))
  ∧ (∀ k v, engine_options !! k = Some v →
            options !! k = Some v ∨ (k = "echo" ∧ v = VBool false)).
Proof.
  intros engine_options session_options.
  assert (Hso : ∀ k, session_options !! k =
    setdefault "autocommit" (VBool false)
      (setdefault "autoflush" (VBool true)
         (foldl take_session_option (∅, options) get_cls_kwargs_Session).1) !! k)
    by (intros k; apply session_options_lookup).
  assert (Heo : ∀ k, engine_options !! k =
    setdefault "echo" (VBool false)
      (foldl take_session_option (∅, options) get_cls_kwargs_Session).2 !! k)
    by (intros k; apply engine_options_lookup).
  clearbody engine_options session_options.
  assert (Hfold := foldl_take_session_option get_cls_kwargs_Session ∅ options).
  cbv zeta in Hfold.
  set (r := foldl take_session_option (∅, options) get_cls_kwargs_Session) in *.
  clearbody r.
  assert (Hs : ∀ k v, session_options !! k = Some v →
            (options !! k = Some v ∧ k ∈ get_cls_kwargs_Session)
            ∨ (k = "autoflush" ∧ v = VBool true)
            ∨ (k = "autocommit" ∧ v = VBool false)).
  { intros k v. rewrite Hso.
    destruct (decide (k = "autocommit")) as [->|Hc].
    - rewrite lookup_setdefault_eq, lookup_setdefault_ne by done.
      destruct (Hfold "autocommit") as [_ ->].
      case_bool_decide as Hin; rewrite ?lookup_empty;
        destruct (options !! "autocommit"); simpl; intros [= <-]; auto.
    - rewrite lookup_setdefault_ne by done.
      destruct (decide (k = "autoflush")) as [->|Hf].
      + rewrite lookup_setdefault_eq. destruct (Hfold "autoflush") as [_ ->].
        case_bool_decide as Hin; rewrite ?lookup_empty;
          destruct (options !! "autoflush"); simpl; intros [= <-]; auto.
      + rewrite lookup_setdefault_ne by done. destruct (Hfold k) as [_ ->].
        case_bool_decide as Hin; rewrite ?lookup_empty;
          destruct (options !! k); intros [= <-]; auto. }
  assert (He : ∀ k v, engine_options !! k = Some v →
            (options !! k = Some v ∧ k ∉ get_cls_kwargs_Session)
            ∨ (k = "echo" ∧ v = VBool false)).
  { intros k v. rewrite Heo.
    destruct (decide (k = "echo")) as [->|Hne].
    - rewrite lookup_setdefault_eq. destruct (Hfold "echo") as [-> _].
      case_bool_decide as Hin; [simpl; intros [= <-]; auto|].
      destruct (options !! "echo"); simpl; intros [= <-]; auto.
    - rewrite lookup_setdefault_ne by done. destruct (Hfold k) as [-> _].
      case_bool_decide as Hin; [done|]. auto. }
  split; [|split; [|split]].
  - intros k. split.
    + intros [v Hv]. destruct (Hs k v Hv) as [[Hk Hin]|[[-> _]|[-> _]]]; eauto.
    + rewrite Hso. intros [[[v Hv] Hin]|[ -> | -> ]].
      * exists v. do 2 apply lookup_setdefault_Some.
        destruct (Hfold k) as [_ ->]. by rewrite bool_decide_true, Hv.
      * rewrite lookup_setdefault_ne, lookup_setdefault_eq by done. eauto.
      * rewrite lookup_setdefault_eq. eauto.
  - intros k. split.
    + intros [v Hv]. destruct (He k v Hv) as [[Hk Hout]|[-> _]]; eauto.
    + rewrite Heo. intros [[[v Hv] Hout]| -> ].
      * exists v. apply lookup_setdefault_Some.
        destruct (Hfold k) as [-> _]. by rewrite bool_decide_false.
      * rewrite lookup_setdefault_eq. eauto.
  - intros k v Hv. destruct (Hs k v Hv) as [[Hk _]|[?|?]]; auto.
  - intros k v Hv. destruct (He k v Hv) as [[Hk _]|?]; auto.
Qed.

End OptionsMore.

Lemma session_keyword_order_irrelevant_witness :
  foldl take_session_option (∅, Sample.some_options) ["autoflush"; "twophase"]
  = foldl take_session_option (∅, Sample.some_options) ["twophase"; "autoflush"; "twophase"].
Proof.
  apply (session_keyword_order_irrelevant (Engine := Sample.Engine)).
  intros k. rewrite !elem_of_cons, !elem_of_nil. tauto.
Defined.

Lemma set_session_options_exact_witness :
  is_Some ((_set_session_options Sample.some_options).2 !! "twophase")
  ∧ is_Some ((_set_session_options Sample.some_options).1 !! "pool_size")
  ∧ ¬ is_Some ((_set_session_options Sample.some_options).1 !! "twophase").
Proof.
  destruct (set_session_options_exact (ORM0 := Sample.sample_orm) Sample.some_options)
    as (Hso & Heo & _ & _).
  split; [|split].
  - apply Hso. left. split; [eexists; vm_compute; reflexivity | compute_done].
  - apply Heo. left. split; [eexists; vm_compute; reflexivity | compute_done].
  - intros Hx. apply Heo in Hx as [[_ Hout]|Hecho]; [apply Hout; compute_done | discriminate].
Defined.

(** ** The declarative base and the re-exported names *)

Section Construction2.
Context {Engine : Type} `{!ORM Engine}.
Implicit Types (options : gmap string (value Engine)) (dbs : list (string * string))
  (md mc cls sf : value Engine) (tr : list (@call Engine)) (acc : list string).

(** X3.  The declarative base of a constructed facade is named [Model] and built
    on the caller's [model_class], or on the default model class when that
    argument is falsy.  [__init__] hands [metadata] and [metaclass] over in
    the opposite order to the one [_make_declarative_base] declares: the
    caller's [metadata] is what arrives as the metaclass (replaced by
    [DefaultMeta] when falsy), and the caller's [metaclass] is what arrives
    as the metadata. *)
Theorem model_base_arguments dbs md mc cls sf options tr s tr' :
  __init__ (Some dbs) md mc cls sf options tr = (inr s, tr') →
  base_name (Model s) = "Model"
  ∧ base_cls (Model s) = (if truthy cls then cls else get_default_model_class)
  ∧ base_metaclass (Model s) = (if truthy md then md else DefaultMeta)
  ∧ base_metadata (Model s) = mc.
Proof.
  intros (base & Hbase & _ & _ & ->)%init_inr. simpl.
  unfold _make_declarative_base, declarative_base in Hbase.
  destruct (declarative_base_error _ _ _); [discriminate|].
  injection Hbase as <-. done.
Qed.

(** One turn of the loop of [_include_sqlalchemy] keeps what is installed,
    and adds the key when the object has no such attribute. *)
Lemma include_loop (keys : list string) acc :
  let r := foldl (λ acc key, if hasattr acc key then acc else (acc ++ [key])) acc keys in
  (∀ k, k ∈ r ↔ (k ∈ acc ∨ (k ∈ keys ∧ (k ∉ own_attrs) ∧ (k ∉ session_proxy_attrs))))
  ∧ (NoDup acc → NoDup r).
Proof.
  revert acc. induction keys as [|key keys IH]; intros acc; simpl.
  - split; [|done]. intros k. rewrite elem_of_nil. tauto.
  - destruct (IH (if hasattr acc key then acc else acc ++ [key])) as [IHin IHnd].
    split.
    + intros k. rewrite IHin. clear IHin IHnd IH. unfold hasattr.
      rewrite elem_of_cons.
      case_bool_decide as Hhas.
      * rewrite !elem_of_app in Hhas. split; [tauto|].
        intros [?|[[-> |?] [? ?]]]; tauto.
      * rewrite !elem_of_app in Hhas. rewrite elem_of_app, list_elem_of_singleton.
        split; [|tauto]. intros [[?| ->]|?]; tauto.
    + intros Hnd. apply IHnd. unfold hasattr. case_bool_decide as Hhas; [done|].
      rewrite !elem_of_app in Hhas.
      apply NoDup_app. split; [done|split; [|apply NoDup_singleton]].
      intros x Hx ->%list_elem_of_singleton. tauto.
Qed.

(** X4.  [_include_sqlalchemy] installs exactly the names of [sa.__all__] and
    [sa.orm.__all__] that the object does not have yet, and [event]; so no
    attribute or method of the facade or of [SessionProxy] is replaced by a
    library name other than [event], and every library name is afterwards an
    attribute of the facade. *)
Theorem include_sqlalchemy_exports :
  let installed := _include_sqlalchemy (Engine := Engine) in
  (∀ k, k ∈ installed ↔
        ((k ∈ sa_all ∧ (k ∉ own_attrs) ∧ (k ∉ session_proxy_attrs)) ∨ k = "event"))
  ∧ (∀ k, k ∈ sa_all → hasattr installed k = true).
Proof.
  intros installed. subst installed. unfold _include_sqlalchemy.
  destruct (include_loop sa_all []) as [Hin _]. cbv zeta in Hin.
  set (r := foldl _ [] sa_all) in *. clearbody r.
  assert (Hall : ∀ k, k ∈ (if bool_decide ("event" ∈ r) then r else r ++ ["event"]) ↔
                      ((k ∈ sa_all ∧ (k ∉ own_attrs) ∧ (k ∉ session_proxy_attrs)) ∨ k = "event")).
  { intros k. case_bool_decide as Hev.
    - rewrite Hin, elem_of_nil. split; [tauto|].
      intros [?| ->]; [tauto|]. apply Hin in Hev. rewrite elem_of_nil in Hev. tauto.
    - rewrite elem_of_app, list_elem_of_singleton, Hin, elem_of_nil. tauto. }
  split; [exact Hall|].
  intros k Hk. unfold hasattr. apply bool_decide_eq_true.
  rewrite !elem_of_app, Hall.
  destruct (decide (k ∈ own_attrs)); [tauto|].
  destruct (decide (k ∈ session_proxy_attrs)); tauto.
Qed.

(** X5.  Each name is installed once, also when both module lists carry it: the
    first module's entry stays and the second finds the attribute present. *)
Theorem include_sqlalchemy_installs_once :
  NoDup (_include_sqlalchemy (Engine := Engine)).
Proof.
  unfold _include_sqlalchemy.
  destruct (include_loop sa_all []) as [_ Hnd]. cbv zeta in Hnd.
  specialize (Hnd NoDup_nil_2).
  set (r := foldl _ [] sa_all) in *. clearbody r.
  case_bool_decide as Hev; [done|].
  apply NoDup_app. split; [done|split; [|apply NoDup_singleton]].
  intros x Hx ->%list_elem_of_singleton. done.
Qed.

End Construction2.

(** ** How construction fails *)

Section ConstructionFailure.
Context {Engine : Type} `{!ORM Engine}.
Implicit Types (rest : list (string * string)) (md mc cls sf : value Engine)
  (options : gmap string (value Engine)) (tr : list (@call Engine)).

(** X6.  On a mapping with at least one entry, construction stops at the
    first entry in insertion order, once the declarative base is built: it
    makes one [create_engine] call, with that entry's URL and the engine
    options as two positional arguments, raises the [TypeError] of that
    call, and reaches none of the entries after it. *)
Theorem construction_stops_at_first_failure k url rest md mc cls sf options tr base :
  _make_declarative_base cls md mc = inr base →
  __init__ (Some ((k, url) :: rest)) md mc cls sf options tr
  = (inl (TypeError "create_engine"),
     tr ++ [CreateEngine [ArgValue (VStr url);
                          ArgDict (_set_session_options options).1] ∅]).
Proof.
  intros Hbase. unfold __init__. rewrite Hbase.
  destruct (_set_session_options options) as [eo so]; simpl. reflexivity.
Qed.

(** X15.  The declarative base is built before the databases argument is
    looked at.  When the library rejects what it is given as the metaclass,
    which is the caller's [metadata], construction raises that error
    whatever the databases argument is, a mapping or none, and no
    [create_engine] call is made. *)
Theorem base_error_precedes_databases
    (databases : option (list (string * string))) md mc cls sf options tr err :
  declarative_base_error (py_or cls get_default_model_class) (py_or md DefaultMeta) mc
    = Some err →
  __init__ databases md mc cls sf options tr = (inl (ORMError err), tr).
Proof.
  intros Herr. unfold __init__, _make_declarative_base, declarative_base.
  by rewrite Herr.
Qed.

End ConstructionFailure.

(** ** The schema operations in full *)

Section Schema.
Context {Engine : Type} `{!ORM Engine}.
Implicit Types (w : @world Engine) (kwargs : gmap string (value Engine))
  (args : list (value Engine)) (engine : option string).

(** X7.  [create_all] and [drop_all] never change the facade object: no session
    is created or removed, no option is touched. *)
Theorem schema_ops_leave_facade w engine args kwargs :
  self (create_all engine args kwargs w).2 = self w
  ∧ self (drop_all engine args kwargs w).2 = self w.
Proof.
  destruct (engines (self w) !! default "default" engine) as [h|] eqn:E.
  - by rewrite (create_all_registered _ _ _ _ _ E), (drop_all_registered _ _ _ _ _ E).
  - by rewrite (create_all_unregistered _ _ _ _ E), (drop_all_unregistered _ _ _ _ E).
Qed.

(** X8.  When [create_all] or [drop_all] returns, the name was registered and the
    DDL executor was called exactly once, with a [bind] among its
    keywords. *)
Theorem schema_success_is_one_ddl_call w engine args kwargs :
  let name := default "default" engine in
  (∀ w', create_all engine args kwargs w = (inr tt, w') →
     ∃ h passed,
       engines (self w) !! name = Some h
       ∧ passed = setdefault "bind" (VEngine h) kwargs
       ∧ is_Some (passed !! "bind")
       ∧ metadata_ddl DDLCreateAll args passed = None
       ∧ trace w' = trace w ++ [MetadataDDL DDLCreateAll args passed])
  ∧ (∀ w', drop_all engine args kwargs w = (inr tt, w') →
     ∃ h passed,
       engines (self w) !! name = Some h
       ∧ passed = setdefault "bind" (VEngine h) kwargs
       ∧ is_Some (passed !! "bind")
       ∧ metadata_ddl DDLDropAll args passed = None
       ∧ trace w' = trace w ++ [MetadataDDL DDLDropAll args passed]).
Proof.
  intros name. subst name.
  destruct (engines (self w) !! default "default" engine) as [h|] eqn:E.
  - rewrite (create_all_registered _ _ _ _ _ E), (drop_all_registered _ _ _ _ _ E).
    split; intros w' Hrun; exists h, (setdefault "bind" (VEngine h) kwargs);
      (split; [done|]); (split; [done|]);
      (split; [rewrite lookup_setdefault_eq; eauto|]);
      destruct (metadata_ddl _ _ _); [discriminate| |discriminate|];
      by injection Hrun as <-.
  - rewrite (create_all_unregistered _ _ _ _ E), (drop_all_unregistered _ _ _ _ E).
    split; intros w' [=].
Qed.

(** X9.  The only errors [create_all] and [drop_all] raise: the [KeyError] of an
    unregistered name, raised before anything is done, and the error of the
    DDL executor, passed on as it is after the one call. *)
Theorem schema_errors_classified w engine args kwargs e w' :
  create_all engine args kwargs w = (inl e, w')
  ∨ drop_all engine args kwargs w = (inl e, w') →
  let name := default "default" engine in
  (engines (self w) !! name = None ∧ e = KeyError name ∧ w' = w)
  ∨ (∃ h op err,
       engines (self w) !! name = Some h
       ∧ metadata_ddl op args (setdefault "bind" (VEngine h) kwargs) = Some err
       ∧ e = ORMError err
       ∧ self w' = self w
       ∧ trace w' = trace w ++ [MetadataDDL op args (setdefault "bind" (VEngine h) kwargs)]).
Proof.
  intros Hrun name. subst name.
  destruct (engines (self w) !! default "default" engine) as [h|] eqn:E.
  - right. exists h.
    rewrite (create_all_registered _ _ _ _ _ E), (drop_all_registered _ _ _ _ _ E) in Hrun.
    destruct Hrun as [Hrun|Hrun].
    + exists DDLCreateAll. destruct (metadata_ddl DDLCreateAll _ _) as [err|]; [|discriminate].
      injection Hrun as <- <-. by exists err.
    + exists DDLDropAll. destruct (metadata_ddl DDLDropAll _ _) as [err|]; [|discriminate].
      injection Hrun as <- <-. by exists err.
  - left.
    rewrite (create_all_unregistered _ _ _ _ E), (drop_all_unregistered _ _ _ _ E) in Hrun.
    destruct Hrun as [[= <- <-]|[= <- <-]]; done.
Qed.

End Schema.

(** ** Reconfiguration in sequence *)

Section Reconfigure.
Context {Engine : Type} `{!ORM Engine}.
Implicit Types (w : @world Engine) (kwargs earlier later : gmap string (value Engine))
  (scope : nat).

Lemma update_update_same {V} (a b : gmap string V) : update a (update a b) = update a b.
Proof. unfold update. by rewrite (assoc_L (∪)), (idemp_L (∪)). Qed.

(** X10.  Reconfiguring twice with the same options leaves the facade as one
    reconfiguration does. *)
Theorem reconfigure_idempotent w kwargs scope :
  self (reconfigure kwargs scope (reconfigure kwargs scope w).2).2
  = self (reconfigure kwargs scope w).2.
Proof.
  rewrite !reconfigure_run. simpl.
  unfold with_Session, with_session_options, with_registry. simpl.
  rewrite update_update_same, update_update_same, delete_delete_eq. reflexivity.
Qed.

(** X11.  Two reconfigurations in a row store the options, and set up the
    factory, as a single one with the later keywords laid over the earlier
    ones. *)
Theorem reconfigure_composes w earlier later scope :
  let w12 := (reconfigure later scope (reconfigure earlier scope w).2).2 in
  let w' := (reconfigure (update later earlier) scope w).2 in
  session_options (self w12) = session_options (self w')
  ∧ Session (self w12) = Session (self w')
  ∧ _session (self w12) = _session (self w').
Proof.
  intros w12 w'. subst w12 w'. rewrite !reconfigure_run. simpl.
  assert (Hm : update later (update earlier (session_options (self w)))
               = update (update later earlier) (session_options (self w))).
  { unfold update. by rewrite (assoc_L (∪)). }
  rewrite Hm. split; [done|]. split.
  - f_equal. unfold update. apply map_eq. intros i. rewrite !lookup_union.
    destruct (later !! i), (earlier !! i), (session_options (self w) !! i),
      (kw (Session (self w)) !! i); reflexivity.
  - by rewrite delete_delete_eq.
Qed.

(** X12.  Reconfiguring with no options is not a no-op: the stored options stay
    as they are, but the caller's session is still removed, and the factory
    is handed the stored options again. *)
Theorem reconfigure_without_options w scope :
  let w' := (reconfigure ∅ scope w).2 in
  session_options (self w') = session_options (self w)
  ∧ registry (_session (self w')) = delete scope (registry (_session (self w)))
  ∧ kw (Session (self w')) = update (session_options (self w)) (kw (Session (self w)))
  ∧ (session_options (self w) ⊆ kw (Session (self w)) → Session (self w') = Session (self w)).
Proof.
  intros w'. subst w'. rewrite reconfigure_run. simpl.
  assert (Hm : update ∅ (session_options (self w)) = session_options (self w)).
  { unfold update. by rewrite (left_id_L ∅ (∪)). }
  rewrite Hm. split; [done|]. split; [done|]. split; [done|].
  intros Hsub. unfold update. rewrite (map_subseteq_union _ _ Hsub).
  by destruct (Session (self w)).
Qed.

(** X13.  Reconfiguring from one scope leaves the sessions of the other scopes in
    the registry, as they were built: the new options do not reach them. *)
Theorem reconfigure_spares_other_scopes w kwargs scope scope' :
  scope' ≠ scope →
  registry (_session (self (reconfigure kwargs scope w).2)) !! scope'
  = registry (_session (self w)) !! scope'.
Proof. intros Hne. rewrite reconfigure_run. simpl. by apply lookup_delete_ne. Qed.

End Reconfigure.

(** ** What every operation preserves *)

Section Invariant.
Context {Engine : Type} `{!ORM Engine}.
Implicit Types (w : @world Engine) (s : @SQLAlchemy Engine) (scope : nat).





End Invariant.

(** ** The further properties at work on the sample ORM *)

Lemma model_base_arguments_witness :
  base_name (Model Sample.custom_facade) = "Model"
  ∧ base_cls (Model Sample.custom_facade) = VObj "Base"
  ∧ base_metaclass (Model Sample.custom_facade) = DefaultMeta
  ∧ base_metadata (Model Sample.custom_facade) = VObj "Meta".
Proof.
  apply (model_base_arguments (ORM0 := Sample.sample_orm) []
           VNone (VObj "Meta") (VObj "Base") VNone Sample.some_options []
           Sample.custom_facade []).
  vm_compute. reflexivity.
Defined.

Lemma include_sqlalchemy_exports_witness :
  "create_engine" ∈ _include_sqlalchemy (ORM0 := Sample.sample_orm)
  ∧ "event" ∈ _include_sqlalchemy (ORM0 := Sample.sample_orm)
  ∧ "Session" ∉ _include_sqlalchemy (ORM0 := Sample.sample_orm).
Proof.
  destruct (include_sqlalchemy_exports (ORM0 := Sample.sample_orm)) as [Hin _].
  split; [|split].
  - apply Hin. left. split; [compute_done|split; compute_done].
  - apply Hin. by right.
  - intros Hx. apply Hin in Hx as [(_ & Hown & _)|Hev]; [|discriminate].
    apply Hown. compute_done.
Defined.

Lemma construction_stops_at_first_failure_witness :
  __init__ (ORM0 := Sample.sample_orm)
    (Some (("default", "sqlite:///a.db") :: [("replica", "sqlite:///b.db")]))
    VNone VNone VNone VNone Sample.some_options []
  = (inl (TypeError "create_engine"),
     [] ++ [CreateEngine [ArgValue (VStr "sqlite:///a.db");
                          ArgDict (_set_session_options Sample.some_options).1] ∅]).
Proof.
  apply (construction_stops_at_first_failure (ORM0 := Sample.sample_orm)
           "default" "sqlite:///a.db" [("replica", "sqlite:///b.db")]
           VNone VNone VNone VNone Sample.some_options [] Sample.plain_base).
  reflexivity.
Defined.

Lemma base_error_precedes_databases_witness :
  __init__ (ORM0 := Sample.sample_orm) (Some Sample.two_databases)
    (VObj "MetaData") VNone VNone VNone Sample.some_options []
  = (inl (ORMError "TypeError"), []).
Proof.
  apply (base_error_precedes_databases (ORM0 := Sample.sample_orm)
           (Some Sample.two_databases) (VObj "MetaData") VNone VNone VNone
           Sample.some_options [] "TypeError").
  reflexivity.
Defined.

Lemma schema_success_is_one_ddl_call_witness :
  ∃ h passed,
    engines (self Sample.built_world) !! "default" = Some h
    ∧ passed = setdefault "bind" (VEngine h) ∅
    ∧ is_Some (passed !! "bind")
    ∧ metadata_ddl DDLCreateAll [] passed = None
    ∧ trace (create_all None [] ∅ Sample.built_world).2
      = trace Sample.built_world ++ [MetadataDDL DDLCreateAll [] passed].
Proof.
  apply (proj1 (schema_success_is_one_ddl_call Sample.built_world None [] ∅)).
  vm_compute. reflexivity.
Defined.

Lemma schema_errors_classified_witness :
  (engines (self Sample.built_world) !! "archive" = None
   ∧ KeyError "archive" = KeyError "archive"
   ∧ Sample.built_world = Sample.built_world)
  ∨ (∃ h op err,
       engines (self Sample.built_world) !! "archive" = Some h
       ∧ metadata_ddl op [] (setdefault "bind" (VEngine h) ∅) = Some err
       ∧ KeyError "archive" = ORMError err
       ∧ self Sample.built_world = self Sample.built_world
       ∧ trace Sample.built_world
         = trace Sample.built_world
           ++ [MetadataDDL op [] (setdefault "bind" (VEngine h) ∅)]).
Proof.
  apply (schema_errors_classified Sample.built_world (Some "archive") [] ∅
           (KeyError "archive") Sample.built_world).
  left. vm_compute. reflexivity.
Defined.

Lemma reconfigure_without_options_witness :
  Session (self (reconfigure ∅ 7 Sample.world_with_session).2)
  = Session (self Sample.world_with_session).
Proof.
  apply (reconfigure_without_options Sample.world_with_session 7).
  replace (kw (Session (self Sample.world_with_session)))
    with (session_options (self Sample.world_with_session))
    by (vm_compute; reflexivity).
  reflexivity.
Defined.

Lemma reconfigure_spares_other_scopes_witness :
  registry (_session (self (reconfigure {[ "autocommit" := VBool true ]} 8
                              Sample.world_with_session).2)) !! 7
  = registry (_session (self Sample.world_with_session)) !! 7.
Proof.
  apply (reconfigure_spares_other_scopes Sample.world_with_session _ 8 7). lia.
Defined.

